(** * Parity check of a 2-bit input: builder, simulator, classifier

    A shallow embedding of [parity_check_app.py].  The script builds a
    three-qubit circuit for a two-character input state, runs it on a
    simulator backend for a number of shots, and reads the parity off the
    first key of the returned counts.

    Python strings are [string]s, a [dict] is an association list in insertion
    order (the classifier depends on that order), Python integers are [Z], and
    a raised exception is the left injection of a sum. *)

From stdpp Require Import base list strings.
From Stdlib Require Import Ascii String ZArith Lia.

Local Open Scope string_scope.
Local Open Scope list_scope.
Local Open Scope Z_scope.

(** ** Exceptions *)

(** [IndexError] is what Python raises on an out-of-range subscript; the other
    four are the typed failures of the specification's error taxonomy. *)
Inductive error : Type :=
  | IndexError
  | InvalidInputError
  | MalformedNetworkError
  | InvalidTrialCountError
  | EmptyResultError.

Definition result (A : Type) : Type := (error + A)%type.

Definition raise {A : Type} (e : error) : result A := inl e.
Definition ret {A : Type} (a : A) : result A := inr a.

Definition bind {A B : Type} (m : result A) (k : A -> result B) : result B :=
  match m with
  | inl e => inl e
  | inr a => k a
  end.

Notation "'let*' v ':=' m 'in' k" := (bind m (fun v => k))
  (at level 10, v name, m at level 200, k at level 200).

#[global] Instance error_eq_dec : EqDecision error.
Proof. solve_decision. Defined.

(** ** Subscripts *)

(** [s[i]] on a Python string, for a non-negative literal index. *)
Definition str_getitem (s : string) (i : nat) : result ascii :=
  match String.get i s with
  | Some c => ret c
  | None => raise IndexError
  end.

(** [l[i]] on a Python list. *)
Definition list_getitem {A : Type} (l : list A) (i : nat) : result A :=
  match l !! i with
  | Some a => ret a
  | None => raise IndexError
  end.

(** ** Circuits *)

(** The instructions the script appends: [qc.x], [qc.cx], [qc.barrier] and
    [qc.measure].  The specification calls the first, second and fourth
    Set, ConditionalInvert and Readout; a barrier is a drawing and
    scheduling directive that acts on no cell. *)
Inductive instruction : Type :=
  | XGate (qubit : nat)
  | CXGate (control target : nat)
  | Barrier
  | Measure (qubit cbit : nat).

#[global] Instance instruction_eq_dec : EqDecision instruction.
Proof. solve_decision. Defined.

Module QuantumCircuit.

Record t : Type := mk {
  num_qubits : nat;
  num_clbits : nat;
  data : list instruction
}.

(** [QuantumCircuit(n, m)]: [n] qubits, [m] classical bits, no instruction. *)
Definition new (n m : nat) : t := mk n m [].

Definition append (i : instruction) (qc : t) : t :=
  mk (num_qubits qc) (num_clbits qc) (data qc ++ [i]).

Definition x (qubit : nat) (qc : t) : t := append (XGate qubit) qc.

Definition cx (control target : nat) (qc : t) : t :=
  append (CXGate control target) qc.

Definition barrier (qc : t) : t := append Barrier qc.

Definition measure (qubit cbit : nat) (qc : t) : t :=
  append (Measure qubit cbit) qc.

End QuantumCircuit.

Abbreviation QuantumCircuit := QuantumCircuit.t.

#[global] Instance QuantumCircuit_eq_dec : EqDecision QuantumCircuit.
Proof. solve_decision. Defined.

(** ** Network builder *)

(** [create_parity_check_circuit], statement by statement. *)
Definition create_parity_check_circuit (input_state : string)
  : result QuantumCircuit :=
  let qc := QuantumCircuit.new 3 1 in
  let* c0 := str_getitem input_state 0 in
  let qc := if Ascii.eqb c0 "1" then QuantumCircuit.x 0 qc else qc in
  let* c1 := str_getitem input_state 1 in
  let qc := if Ascii.eqb c1 "1" then QuantumCircuit.x 1 qc else qc in
  let qc := QuantumCircuit.barrier qc in
  let qc := QuantumCircuit.cx 0 2 qc in
  let qc := QuantumCircuit.cx 1 2 qc in
  let qc := QuantumCircuit.barrier qc in
  let qc := QuantumCircuit.measure 2 0 qc in
  ret qc.

(** The input states of the data model: two characters, each ['0'] or ['1']. *)
Definition is_bit (c : ascii) : bool := Ascii.eqb c "0" || Ascii.eqb c "1".

Definition valid_input (s : string) : bool :=
  match s with
  | String c0 (String c1 EmptyString) => is_bit c0 && is_bit c1
  | _ => false
  end.

(** The bit a character stands for in the builder: ['1'] or anything else. *)
Definition bit_of (c : ascii) : bool := Ascii.eqb c "1".

(** The operations of a circuit: its instructions without the barriers. *)
Definition is_operation (i : instruction) : bool :=
  match i with
  | Barrier => false
  | _ => true
  end.

Definition operations (qc : QuantumCircuit) : list instruction :=
  List.filter is_operation (QuantumCircuit.data qc).

(** What the builder reads of its input: the characters at positions 0 and 1,
    each as ['1'] or not. *)
Definition normalise (s : string) : string :=
  match s with
  | String c0 (String c1 _) =>
      String (if bit_of c0 then "1" else "0")%char
        (String (if bit_of c1 then "1" else "0")%char EmptyString)
  | _ => s
  end.

(** ** Trial simulator *)

(** The state one repetition works on: the storage cells and the readout
    slots. *)
Record machine : Type := Machine {
  cells : list bool;
  slots : list bool
}.

(** Every cell and every slot starts at 0. *)
Definition initial (net : QuantumCircuit) : machine :=
  Machine (replicate (QuantumCircuit.num_qubits net) false)
          (replicate (QuantumCircuit.num_clbits net) false).

(** Modelled from the spec: the gate library and the simulator backend
    ([AerSimulator], [backend.run], [get_counts]) are imported by the script
    and are not among its sources.  One operation on the cells, after the
    operation kinds of the data model: Set initialises a cell that starts at 0
    to 1, ConditionalInvert flips the target iff the control holds 1, Readout
    copies the source cell into the slot (the measurement model is ideal), a
    barrier does nothing.  A cell or slot out of range gives no state. *)
Definition execute (i : instruction) (m : machine) : option machine :=
  match i with
  | XGate q =>
      v ← cells m !! q;
      Some (Machine (<[q := negb v]> (cells m)) (slots m))
  | CXGate c t =>
      vc ← cells m !! c;
      vt ← cells m !! t;
      Some (Machine (if vc : bool then <[t := negb vt]> (cells m) else cells m)
                    (slots m))
  | Barrier => Some m
  | Measure q s =>
      v ← cells m !! q;
      _ ← slots m !! s;
      Some (Machine (cells m) (<[s := v]> (slots m)))
  end.

Fixpoint execute_all (prog : list instruction) (m : machine) : option machine :=
  match prog with
  | [] => Some m
  | i :: prog' => m' ← execute i m; execute_all prog' m'
  end.

(** The instructions that precede the readout. *)
Fixpoint before_readout (prog : list instruction) : list instruction :=
  match prog with
  | [] => []
  | Measure _ _ :: _ => []
  | i :: prog' => i :: before_readout prog'
  end.

(** The accumulator (cell 2) immediately before the readout. *)
Definition accumulator (net : QuantumCircuit) : option bool :=
  m ← execute_all (before_readout (QuantumCircuit.data net)) (initial net);
  cells m !! 2%nat.

(** Modelled from the spec: the structural invariants of a network
    description, which the simulator validates.  Three cells and one slot;
    without the barriers, up to two Set operations on distinct input cells,
    then ConditionalInvert(0,2), ConditionalInvert(1,2), then the one
    Readout(2, slot 0). *)
Definition is_set (i : instruction) : bool :=
  match i with
  | XGate q => bool_decide (q < 2)%nat
  | _ => false
  end.

Definition well_formed (net : QuantumCircuit) : bool :=
  let ops := operations net in
  let n := (List.length ops - 3)%nat in
  bool_decide (QuantumCircuit.num_qubits net = 3%nat)
  && bool_decide (QuantumCircuit.num_clbits net = 1%nat)
  && bool_decide (n ≤ 2)%nat
  && forallb is_set (take n ops)
  && bool_decide (NoDup (take n ops))
  && bool_decide (drop n ops = [CXGate 0 2; CXGate 1 2; Measure 2 0]).

(** The key under which a readout value is counted. *)
Definition key_of (b : bool) : string := if b then "1" else "0".

(** A frequency table: a Python [dict] from readout key to count, as its items
    in insertion order. *)
Definition FrequencyTable : Type := list (string * Z).

Definition keys (table : FrequencyTable) : list string := table.*1.

Fixpoint table_get (table : FrequencyTable) (k : string) : option Z :=
  match table with
  | [] => None
  | (k', n) :: table' => if decide (k = k') then Some n else table_get table' k
  end.

Definition total (table : FrequencyTable) : Z :=
  foldr (fun kn acc => kn.2 + acc) 0 table.

(** One more occurrence of key [k]: [table[k] = table.get(k, 0) + 1]. *)
Fixpoint record (k : string) (table : FrequencyTable) : FrequencyTable :=
  match table with
  | [] => [(k, 1)]
  | (k', n) :: table' =>
      if decide (k = k') then (k', n + 1) :: table'
      else (k', n) :: record k table'
  end.

(** The running tally over the outcomes in the order they arrive. *)
Definition aggregate (outcomes : list bool) : FrequencyTable :=
  foldl (fun table b => record (key_of b) table) [] outcomes.

(** One repetition: evaluate the network from the initial state and sample
    slot 0. *)
Definition run_trial (net : QuantumCircuit) : result bool :=
  match execute_all (QuantumCircuit.data net) (initial net) with
  | Some m =>
      match slots m !! 0%nat with
      | Some b => ret b
      | None => raise MalformedNetworkError
      end
  | None => raise MalformedNetworkError
  end.

(** [n] independent repetitions, outcomes in trial order. *)
Fixpoint run_trials (n : nat) (net : QuantumCircuit) : result (list bool) :=
  match n with
  | O => ret []
  | S n' =>
      let* b := run_trial net in
      let* bs := run_trials n' net in
      ret (b :: bs)
  end.

(** Modelled from the spec: [simulate(network, trials)], standing for
    [backend.run(qc, shots=shots).result().get_counts(qc)], whose code is
    not among the sources.  A non-positive trial count and a malformed
    network are refused; otherwise every repetition is evaluated and tallied. *)
Definition simulate (network : QuantumCircuit) (trials : Z)
  : result FrequencyTable :=
  if trials <=? 0 then raise InvalidTrialCountError
  else if negb (well_formed network) then raise MalformedNetworkError
  else
    let* outcomes := run_trials (Z.to_nat trials) network in
    ret (aggregate outcomes).

(** ** Parity classifier *)

Definition Even : string := "Even".
Definition Odd : string := "Odd".

(** Lines 73 and 74 of the script: the first key of the counts, and its
    label.  The pair is (label, readout value). *)
Definition classify (counts : FrequencyTable) : result (string * string) :=
  let* parity_result_bit := list_getitem (keys counts) 0 in
  let parity := if decide (parity_result_bit = "0") then Even else Odd in
  ret (parity, parity_result_bit).

(** The classifier in the specification's words: the key of the greatest
    count, a tie going to ['0']; ['0'] is Even and ['1'] is Odd. *)
Definition better (best cand : string * Z) : string * Z :=
  if (best.2 <? cand.2) || ((best.2 =? cand.2) && bool_decide (cand.1 = "0"))
  then cand else best.

Definition dominant_spec (table : FrequencyTable) : option (string * Z) :=
  match table with
  | [] => None
  | kn :: table' => Some (foldl better kn table')
  end.

Definition classify_spec (table : FrequencyTable) : result (string * string) :=
  match dominant_spec table with
  | None => raise EmptyResultError
  | Some (k, _) => ret (if decide (k = "0") then Even else Odd, k)
  end.

(** ** The three stages composed, as the script runs them *)

Definition shots : Z := 1024.

Definition parity_check (input_state : string) (trials : Z)
  : result (string * string) :=
  let* qc := create_parity_check_circuit input_state in
  let* counts := simulate qc trials in
  classify counts.

(** ** Vocabulary of the statements *)

(** The circuit the builder returns for input bits [b0] and [b1]. *)
Definition parity_circuit (b0 b1 : bool) : QuantumCircuit :=
  QuantumCircuit.mk 3 1
    ((if b0 then [XGate 0] else []) ++ (if b1 then [XGate 1] else [])
     ++ [Barrier; CXGate 0 2; CXGate 1 2; Barrier; Measure 2 0]).

(** The input bit at position [i]: whether the character there is ['1']. *)
Definition input_bit (s : string) (i : nat) : bool :=
  bool_decide (String.get i s = Some "1"%char).

(** ** The script around the three stages *)

(** The options of both sidebar selectors, lines 38 and 39. *)
Definition options : list string := ["0"; "1"].

(** Line 40: [f"{q0_state}{q1_state}"]. *)
Definition input_state_str (q0_state q1_state : string) : string :=
  q0_state +:+ q1_state.

(** What the right-hand column shows, lines 89 to 93: the label and the value
    of the metric, and the sentence under it.  The strings are the bytes of
    the source's UTF-8 text. *)
Record display : Type := Display {
  metric_label : string;
  metric_value : string;
  message : string
}.

Definition render_label (input_state_str : string) : string :=
  "Input State |" +:+ input_state_str +:+ "⟩ Parity".

Definition render_message (parity_result_bit parity : string) : string :=
  "The ancilla qubit was measured in the state **|" +:+ parity_result_bit
  +:+ "⟩**, " +:+ "which indicates the input has **" +:+ parity
  +:+ "** parity.".

(** The script from the selectors to the display, lines 38 to 93 without the
    drawing and the histogram.  The backend is imported, so the counts it
    returns for a circuit and a number of shots are a parameter:
    [get_counts qc shots] stands for
    [backend.run(qc, shots=shots).result().get_counts(qc)]. *)
Definition script (get_counts : QuantumCircuit -> Z -> FrequencyTable)
    (q0_state q1_state : string) : result display :=
  let input := input_state_str q0_state q1_state in
  let* qc := create_parity_check_circuit input in
  let counts := get_counts qc shots in
  let* classified := classify counts in
  let parity := classified.1 in
  let parity_result_bit := classified.2 in
  ret (Display (render_label input) parity
               (render_message parity_result_bit parity)).

(** An instruction a circuit accepts: its qubits and classical bit exist and
    a controlled gate has two different qubits. *)
Definition in_range (qc : QuantumCircuit) (i : instruction) : bool :=
  match i with
  | XGate q => bool_decide (q < QuantumCircuit.num_qubits qc)%nat
  | CXGate c t =>
      bool_decide (c < QuantumCircuit.num_qubits qc)%nat
      && bool_decide (t < QuantumCircuit.num_qubits qc)%nat
      && bool_decide (c <> t)
  | Barrier => true
  | Measure q c =>
      bool_decide (q < QuantumCircuit.num_qubits qc)%nat
      && bool_decide (c < QuantumCircuit.num_clbits qc)%nat
  end.

Definition is_measure (i : instruction) : bool :=
  match i with
  | Measure _ _ => true
  | _ => false
  end.

Definition is_x (i : instruction) : bool :=
  match i with
  | XGate _ => true
  | _ => false
  end.

(** The number of input bits that are 1. *)
Definition ones (s : string) : nat :=
  ((if input_bit s 0 then 1 else 0) + (if input_bit s 1 then 1 else 0))%nat.

(** * Properties *)

(** ** Builder *)

Lemma create_two_characters c0 c1 rest :
  create_parity_check_circuit (String c0 (String c1 rest))
  = ret (parity_circuit (bit_of c0) (bit_of c1)).
Proof.
  unfold create_parity_check_circuit, str_getitem, bit_of; simpl.
  destruct (Ascii.eqb c0 "1"), (Ascii.eqb c1 "1"); reflexivity.
Qed.

Lemma create_short s :
  (String.length s < 2)%nat ->
  create_parity_check_circuit s = raise IndexError.
Proof.
  destruct s as [|c0 [|c1 rest]]; simpl; intros Hlen.
  - reflexivity.
  - unfold create_parity_check_circuit, str_getitem; simpl.
    destruct (Ascii.eqb c0 "1"); reflexivity.
  - lia.
Qed.

Lemma is_bit_cases c : is_bit c = true -> c = "0"%char \/ c = "1"%char.
Proof.
  unfold is_bit; intros H.
  apply orb_true_iff in H as [H|H]; apply Ascii.eqb_eq in H; auto.
Qed.

Lemma valid_input_inv s :
  valid_input s = true ->
  exists c0 c1, s = String c0 (String c1 EmptyString)
                /\ is_bit c0 = true /\ is_bit c1 = true.
Proof.
  destruct s as [|c0 [|c1 [|c2 rest]]]; simpl; try discriminate.
  intros H. apply andb_true_iff in H as [H0 H1]. eauto.
Qed.

(** C2, as the code has it: the builder fails exactly on the strings shorter
    than two characters, where the subscript raises [IndexError], and returns
    no network then; every longer string builds. *)
Theorem build_fails_iff_short (s : string) :
  (create_parity_check_circuit s = raise IndexError
   <-> (String.length s < 2)%nat)
  /\ ((exists qc, create_parity_check_circuit s = ret qc)
      <-> (2 <= String.length s)%nat).
Proof.
  split; split.
  - destruct s as [|c0 [|c1 rest]]; simpl; intros H; try lia.
    rewrite create_two_characters in H. discriminate.
  - apply create_short.
  - intros [qc Hqc].
    destruct (Nat.lt_ge_cases (String.length s) 2) as [Hlt|Hge]; [|exact Hge].
    rewrite (create_short s Hlt) in Hqc. discriminate.
  - destruct s as [|c0 [|c1 rest]]; simpl; intros H; try lia.
    eexists. apply create_two_characters.
Qed.

(** C2 as stated fails: ["2x"] and ["0100"] are not valid input states and
    still build, and the failure on ["0"] is an [IndexError]. *)
Lemma build_accepts_invalid_input :
  valid_input "2x" = false
  /\ create_parity_check_circuit "2x" = ret (parity_circuit false false)
  /\ create_parity_check_circuit "2x" <> raise InvalidInputError
  /\ valid_input "0100" = false
  /\ create_parity_check_circuit "0100" <> raise InvalidInputError
  /\ create_parity_check_circuit "0" <> raise InvalidInputError.
Proof. repeat split; try reflexivity; vm_compute; discriminate. Qed.

(** C3: for a valid input state the builder emits, in this order, Set on
    cell 0 only if the first character is ['1'], Set on cell 1 only if the
    second is, ConditionalInvert(0,2), ConditionalInvert(1,2) and
    Readout(2, slot 0); its instruction list has one barrier after the Sets
    and one before the Readout, and nothing else. *)
Theorem build_emits_in_order (c0 c1 : ascii) :
  valid_input (String c0 (String c1 EmptyString)) = true ->
  exists qc,
    create_parity_check_circuit (String c0 (String c1 EmptyString)) = ret qc
    /\ operations qc
       = (if Ascii.eqb c0 "1" then [XGate 0] else [])
         ++ (if Ascii.eqb c1 "1" then [XGate 1] else [])
         ++ [CXGate 0 2; CXGate 1 2; Measure 2 0]
    /\ QuantumCircuit.data qc
       = (if Ascii.eqb c0 "1" then [XGate 0] else [])
         ++ (if Ascii.eqb c1 "1" then [XGate 1] else [])
         ++ [Barrier; CXGate 0 2; CXGate 1 2; Barrier; Measure 2 0].
Proof.
  intros _. eexists. split; [apply create_two_characters|].
  unfold bit_of, operations, parity_circuit; simpl.
  destruct (Ascii.eqb c0 "1"), (Ascii.eqb c1 "1"); split; reflexivity.
Qed.

Lemma build_emits_in_order_witness :
  exists qc,
    create_parity_check_circuit "10" = ret qc
    /\ operations qc = [XGate 0; CXGate 0 2; CXGate 1 2; Measure 2 0]
    /\ QuantumCircuit.data qc
       = [XGate 0; Barrier; CXGate 0 2; CXGate 1 2; Barrier; Measure 2 0].
Proof. apply (build_emits_in_order "1" "0"). reflexivity. Defined.

(** C9: on every string of at least two characters the builder returns a
    network; it is the network of the two-character state that has ['1']
    where the string has ['1'] at positions 0 and 1 and ['0'] elsewhere, so
    any other character counts as ['0'] and the characters past position 1 are
    not read. *)
Theorem build_reads_positions_0_and_1 (s : string) :
  (2 <= String.length s)%nat ->
  exists qc,
    create_parity_check_circuit s = ret qc
    /\ valid_input (normalise s) = true
    /\ create_parity_check_circuit (normalise s) = ret qc
    /\ String.get 0 (normalise s)
       = Some (if decide (String.get 0 s = Some "1"%char) then "1" else "0")%char
    /\ String.get 1 (normalise s)
       = Some (if decide (String.get 1 s = Some "1"%char) then "1" else "0")%char.
Proof.
  destruct s as [|c0 [|c1 rest]]; simpl; try lia. intros _.
  exists (parity_circuit (bit_of c0) (bit_of c1)).
  split; [apply create_two_characters|].
  rewrite create_two_characters. unfold bit_of.
  destruct (Ascii.eqb_spec c0 "1"), (Ascii.eqb_spec c1 "1"); subst; simpl;
    repeat split; try reflexivity;
    repeat case_decide; congruence.
Qed.

Lemma build_reads_positions_0_and_1_witness :
  normalise "0100" = "01" /\ normalise "2x" = "00"
  /\ create_parity_check_circuit "0100" = create_parity_check_circuit "01"
  /\ create_parity_check_circuit "2x" = create_parity_check_circuit "00".
Proof.
  split; [reflexivity|]. split; [reflexivity|]. split.
  - destruct (build_reads_positions_0_and_1 "0100") as (qc & H1 & _ & H2 & _).
    + simpl; lia.
    + rewrite H1. symmetry. exact H2.
  - destruct (build_reads_positions_0_and_1 "2x") as (qc & H1 & _ & H2 & _).
    + simpl; lia.
    + rewrite H1. symmetry. exact H2.
Defined.

(** ** Evaluation of a network *)

Lemma execute_all_app p q m :
  execute_all (p ++ q) m = execute_all p m ≫= execute_all q.
Proof.
  revert m. induction p as [|i p IH]; intros m; simpl; [reflexivity|].
  destruct (execute i m) as [m'|]; simpl; [apply IH|reflexivity].
Qed.

(** Barriers do not act: a program and its operations evaluate alike. *)
Lemma execute_all_operations prog m :
  execute_all prog m = execute_all (List.filter is_operation prog) m.
Proof.
  revert m. induction prog as [|i prog IH]; intros m; simpl; [reflexivity|].
  destruct (is_operation i) eqn:Hop.
  - simpl. destruct (execute i m); simpl; auto.
  - destruct i; try discriminate. simpl. apply IH.
Qed.

Lemma execute_set i m :
  is_set i = true ->
  List.length (cells m) = 3%nat ->
  exists cs, execute i m = Some (Machine cs (slots m))
             /\ List.length cs = 3%nat.
Proof.
  destruct i as [q| | |]; simpl; try discriminate.
  intros Hq Hlen. apply bool_decide_eq_true in Hq.
  destruct (lookup_lt_is_Some_2 (cells m) q) as [v Hv]; [lia|].
  rewrite Hv; simpl. eexists; split; [reflexivity|].
  rewrite length_insert. exact Hlen.
Qed.

Lemma execute_sets sets m :
  forallb is_set sets = true ->
  List.length (cells m) = 3%nat ->
  exists cs, execute_all sets m = Some (Machine cs (slots m))
             /\ List.length cs = 3%nat.
Proof.
  revert m. induction sets as [|i sets IH]; intros m Hall Hlen; simpl in *.
  - exists (cells m). destruct m; auto.
  - apply andb_true_iff in Hall as [Hi Hall].
    destruct (execute_set i m Hi Hlen) as (cs & -> & Hcs); simpl.
    apply (IH (Machine cs (slots m))); assumption.
Qed.

Lemma execute_accumulate a b c s0 :
  execute_all [CXGate 0 2; CXGate 1 2; Measure 2 0] (Machine [a; b; c] [s0])
  = Some (Machine [a; b; xorb (xorb a b) c] [xorb (xorb a b) c]).
Proof. destruct a, b, c; reflexivity. Qed.

Lemma well_formed_operations net :
  well_formed net = true ->
  QuantumCircuit.num_qubits net = 3%nat
  /\ QuantumCircuit.num_clbits net = 1%nat
  /\ exists sets,
       operations net = sets ++ [CXGate 0 2; CXGate 1 2; Measure 2 0]
       /\ forallb is_set sets = true.
Proof.
  unfold well_formed; intros H.
  repeat (apply andb_true_iff in H as [H ?]).
  repeat match goal with
         | Hb : bool_decide _ = true |- _ => apply bool_decide_eq_true in Hb
         end.
  split; [assumption|]. split; [assumption|].
  exists (take (List.length (operations net) - 3) (operations net)).
  split; [|assumption].
  match goal with Hd : drop _ _ = _ |- _ => rewrite <- Hd end.
  symmetry; apply take_drop.
Qed.

(** A well-formed network evaluates, whatever its input cells were set to. *)
Lemma well_formed_run_trial net :
  well_formed net = true -> exists b, run_trial net = ret b.
Proof.
  intros Hwf.
  destruct (well_formed_operations net Hwf) as (Hq & Hc & sets & Hops & Hsets).
  unfold run_trial. rewrite execute_all_operations.
  fold (operations net). rewrite Hops, execute_all_app.
  destruct (execute_sets sets (initial net) Hsets) as (cs & -> & Hcs).
  { unfold initial; simpl. rewrite length_replicate. exact Hq. }
  replace (slots (initial net)) with [false]
    by (unfold initial; simpl; rewrite Hc; reflexivity).
  destruct cs as [|a [|b [|c [|? ?]]]]; simpl in Hcs; try lia.
  cbn [mbind option_bind].
  rewrite execute_accumulate. simpl. eauto.
Qed.

Lemma run_trials_replicate net b n :
  run_trial net = ret b -> run_trials n net = ret (replicate n b).
Proof.
  intros Hb. induction n as [|n IH]; simpl; [reflexivity|].
  rewrite Hb, IH. reflexivity.
Qed.

(** ** Tallies *)

Lemma tally_same_key k c bs :
  Forall (fun b => key_of b = k) bs ->
  foldl (fun table b => record (key_of b) table) [(k, c)] bs
  = [(k, c + Z.of_nat (List.length bs))].
Proof.
  revert c. induction bs as [|b bs IH]; intros c Hall; simpl.
  - f_equal. f_equal. lia.
  - inversion Hall as [|? ? Hb Hbs]; subst.
    rewrite decide_True by reflexivity.
    rewrite IH by assumption. f_equal. f_equal. lia.
Qed.

Lemma aggregate_replicate b n :
  (0 < n)%nat -> aggregate (replicate n b) = [(key_of b, Z.of_nat n)].
Proof.
  destruct n as [|n]; [lia|]. intros _.
  unfold aggregate; simpl.
  rewrite tally_same_key.
  - rewrite length_replicate. f_equal. f_equal. lia.
  - apply Forall_forall. intros x Hx.
    apply elem_of_replicate in Hx as [-> _]. reflexivity.
Qed.

Lemma key_of_cases b : key_of b = "0" \/ key_of b = "1".
Proof. destruct b; auto. Qed.

(** The table of a well-formed network and a positive trial count. *)
Lemma simulate_well_formed net trials :
  well_formed net = true ->
  1 <= trials ->
  exists b, run_trial net = ret b
            /\ simulate net trials = ret [(key_of b, trials)].
Proof.
  intros Hwf Hn.
  destruct (well_formed_run_trial net Hwf) as [b Hb].
  exists b. split; [assumption|].
  unfold simulate.
  destruct (Z.leb_spec trials 0); [lia|].
  rewrite Hwf; simpl.
  rewrite (run_trials_replicate net b _ Hb); simpl.
  rewrite aggregate_replicate by lia.
  unfold ret. do 3 f_equal. lia.
Qed.

(** ** The built networks *)

Lemma parity_circuit_accumulator b0 b1 :
  accumulator (parity_circuit b0 b1) = Some (xorb b0 b1).
Proof. destruct b0, b1; reflexivity. Qed.

Lemma parity_circuit_well_formed b0 b1 :
  well_formed (parity_circuit b0 b1) = true.
Proof. destruct b0, b1; reflexivity. Qed.

Lemma parity_circuit_run_trial b0 b1 :
  run_trial (parity_circuit b0 b1) = ret (xorb b0 b1).
Proof. destruct b0, b1; reflexivity. Qed.

Lemma input_bit_0 c0 rest : input_bit (String c0 rest) 0 = bit_of c0.
Proof.
  unfold input_bit, bit_of; simpl.
  destruct (Ascii.eqb_spec c0 "1") as [->|Hne].
  - apply bool_decide_eq_true. reflexivity.
  - apply bool_decide_eq_false. congruence.
Qed.

Lemma input_bit_1 c0 c1 rest :
  input_bit (String c0 (String c1 rest)) 1 = bit_of c1.
Proof.
  unfold input_bit, bit_of; simpl.
  destruct (Ascii.eqb_spec c1 "1") as [->|Hne].
  - apply bool_decide_eq_true. reflexivity.
  - apply bool_decide_eq_false. congruence.
Qed.

(** C4: for a valid input state, evaluating the operations of the built
    network up to the readout leaves in cell 2 the exclusive-or of the two
    input bits. *)
Theorem accumulator_is_xor (s : string) :
  valid_input s = true ->
  exists qc,
    create_parity_check_circuit s = ret qc
    /\ accumulator qc = Some (xorb (input_bit s 0) (input_bit s 1)).
Proof.
  intros Hs. destruct (valid_input_inv s Hs) as (c0 & c1 & -> & _ & _).
  exists (parity_circuit (bit_of c0) (bit_of c1)).
  split; [apply create_two_characters|].
  rewrite input_bit_0, input_bit_1. apply parity_circuit_accumulator.
Qed.

Lemma accumulator_is_xor_witness :
  exists qc,
    create_parity_check_circuit "01" = ret qc
    /\ accumulator qc = Some true.
Proof. apply (accumulator_is_xor "01"). reflexivity. Defined.

(** The four input states, one by one. *)
Lemma accumulator_scenarios :
  (let* qc := create_parity_check_circuit "00" in ret (accumulator qc))
    = ret (Some false)
  /\ (let* qc := create_parity_check_circuit "11" in ret (accumulator qc))
    = ret (Some false)
  /\ (let* qc := create_parity_check_circuit "01" in ret (accumulator qc))
    = ret (Some true)
  /\ (let* qc := create_parity_check_circuit "10" in ret (accumulator qc))
    = ret (Some true).
Proof. repeat split. Qed.

(** ** Simulator *)

(** C5: for a well-formed network and a trial count of at least 1 the table
    has a single key, ['0'] or ['1'], counted [trials] times; no other key is
    present and the counts sum to [trials]. *)
Theorem simulate_collapses (net : QuantumCircuit) (trials : Z) :
  well_formed net = true ->
  1 <= trials ->
  exists k table,
    simulate net trials = ret table
    /\ (k = "0" \/ k = "1")
    /\ table = [(k, trials)]
    /\ table_get table k = Some trials
    /\ (forall k', k' <> k -> table_get table k' = None)
    /\ total table = trials.
Proof.
  intros Hwf Hn.
  destruct (simulate_well_formed net trials Hwf Hn) as (b & _ & Hsim).
  exists (key_of b), [(key_of b, trials)].
  split; [exact Hsim|]. split; [apply key_of_cases|]. split; [reflexivity|].
  split; [|split].
  - simpl. rewrite decide_True; reflexivity.
  - intros k' Hk'. simpl. rewrite decide_False; [reflexivity|exact Hk'].
  - unfold total; simpl. lia.
Qed.

Lemma simulate_collapses_witness :
  exists k table,
    simulate (parity_circuit true false) 1024 = ret table
    /\ (k = "0" \/ k = "1")
    /\ table = [(k, 1024)]
    /\ table_get table k = Some 1024
    /\ (forall k', k' <> k -> table_get table k' = None)
    /\ total table = 1024.
Proof.
  apply (simulate_collapses (parity_circuit true false) 1024);
    [reflexivity | lia].
Defined.

(** ** Classifier *)

Lemma classify_first k n rest :
  classify ((k, n) :: rest)
  = ret (if decide (k = "0") then Even else Odd, k).
Proof. reflexivity. Qed.

Lemma Even_neq_Odd : Even <> Odd.
Proof. discriminate. Qed.

(** C6, as the code has it: on a non-empty table the classifier selects the
    first key in the table's order, whatever the counts, and labels ['0'] Even
    and ['1'] Odd; on a table of a single key, which is what the simulator
    returns, that is the key of the greatest count. *)
Theorem classify_selects_first_key
    (k : string) (n : Z) (rest : FrequencyTable) :
  classify ((k, n) :: rest) = ret (if decide (k = "0") then Even else Odd, k)
  /\ classify [(k, n)] = classify_spec [(k, n)]
  /\ classify [("0", n)] = ret (Even, "0")
  /\ classify [("1", n)] = ret (Odd, "1").
Proof. repeat split. Qed.

(** C6 as stated fails: with one occurrence of ['0'] recorded before three of
    ['1'], the key of the strictly greatest count is ['1'], and the classifier
    answers Even for ['0']. *)
Lemma classify_ignores_counts :
  dominant_spec [("0", 1); ("1", 3)] = Some ("1", 3)
  /\ classify_spec [("0", 1); ("1", 3)] = ret (Odd, "1")
  /\ classify [("0", 1); ("1", 3)] = ret (Even, "0")
  /\ classify [("0", 1); ("1", 3)] <> classify_spec [("0", 1); ("1", 3)].
Proof. repeat split. discriminate. Qed.

(** C10: the label is Even exactly when the selected readout value is the
    string ['0']; every other value, ['1'] or not, is labelled Odd. *)
Theorem classify_only_zero_is_even
    (counts : FrequencyTable) (parity bit : string) :
  classify counts = ret (parity, bit) ->
  (parity = Even <-> bit = "0") /\ (bit <> "0" -> parity = Odd).
Proof.
  destruct counts as [|[k n] rest]; [discriminate|].
  rewrite classify_first. intros H. injection H as <- <-.
  case_decide as Hk.
  - split; [tauto|]. intros Hne. contradiction.
  - split; [|reflexivity].
    split; [intros HE; symmetry in HE; destruct (Even_neq_Odd HE)|].
    intros Hk'. contradiction.
Qed.

Lemma classify_only_zero_is_even_witness :
  classify [("2", 7); ("0", 9)] = ret (Odd, "2")
  /\ ((Odd = Even <-> "2" = "0") /\ ("2" <> "0" -> Odd = Odd)).
Proof.
  split; [reflexivity|].
  apply (classify_only_zero_is_even [("2", 7); ("0", 9)] Odd "2").
  reflexivity.
Defined.

(** ** The three stages composed *)

Lemma valid_bits_equal c0 c1 :
  is_bit c0 = true -> is_bit c1 = true ->
  (xorb (bit_of c0) (bit_of c1) = false <-> c0 = c1).
Proof.
  intros H0 H1.
  destruct (is_bit_cases c0 H0) as [->| ->], (is_bit_cases c1 H1) as [->| ->];
    simpl; split; intros H; try reflexivity; discriminate.
Qed.

Lemma parity_check_two_characters c0 c1 rest trials :
  1 <= trials ->
  parity_check (String c0 (String c1 rest)) trials
  = ret (if xorb (bit_of c0) (bit_of c1) then (Odd, "1") else (Even, "0")).
Proof.
  intros Hn. unfold parity_check.
  rewrite create_two_characters; simpl.
  destruct (simulate_well_formed _ trials
              (parity_circuit_well_formed (bit_of c0) (bit_of c1)) Hn)
    as (b & Hb & ->).
  rewrite parity_circuit_run_trial in Hb. injection Hb as <-.
  simpl. rewrite classify_first.
  destruct (xorb (bit_of c0) (bit_of c1)); reflexivity.
Qed.

(** C1: for a valid input state and at least one trial, building, simulating
    and classifying gives the label Even if and only if the two characters
    of the state are equal, and Odd if and only if they differ. *)
Theorem parity_check_correct (s : string) (trials : Z) :
  valid_input s = true ->
  1 <= trials ->
  exists parity bit,
    parity_check s trials = ret (parity, bit)
    /\ (parity = Even <-> String.get 0 s = String.get 1 s)
    /\ (parity = Odd <-> String.get 0 s <> String.get 1 s).
Proof.
  intros Hs Hn.
  destruct (valid_input_inv s Hs) as (c0 & c1 & -> & H0 & H1).
  rewrite (parity_check_two_characters c0 c1 EmptyString trials Hn).
  pose proof (valid_bits_equal c0 c1 H0 H1) as Heq. simpl.
  destruct (xorb (bit_of c0) (bit_of c1)); do 2 eexists;
    (split; [reflexivity|]).
  - assert (Hne : c0 <> c1) by (intros E; apply Heq in E; discriminate).
    split; split; intros H.
    + symmetry in H. destruct (Even_neq_Odd H).
    + congruence.
    + congruence.
    + reflexivity.
  - assert (He : c0 = c1) by (apply Heq; reflexivity).
    split; split; intros H.
    + congruence.
    + reflexivity.
    + destruct (Even_neq_Odd H).
    + congruence.
Qed.

Lemma parity_check_correct_witness :
  exists parity bit,
    parity_check "10" shots = ret (parity, bit)
    /\ (parity = Even <-> String.get 0 "10" = String.get 1 "10")
    /\ (parity = Odd <-> String.get 0 "10" <> String.get 1 "10").
Proof.
  apply (parity_check_correct "10" shots); [reflexivity | unfold shots; lia].
Defined.

(** The four scenarios at the script's 1024 shots. *)
Lemma parity_check_scenarios :
  parity_check "00" shots = ret (Even, "0")
  /\ parity_check "11" shots = ret (Even, "0")
  /\ parity_check "01" shots = ret (Odd, "1")
  /\ parity_check "10" shots = ret (Odd, "1").
Proof.
  repeat split; apply parity_check_two_characters; unfold shots; lia.
Qed.

(** ** Further properties of the builder *)

Lemma create_inv s qc :
  create_parity_check_circuit s = ret qc ->
  exists c0 c1 rest,
    s = String c0 (String c1 rest)
    /\ qc = parity_circuit (bit_of c0) (bit_of c1).
Proof.
  destruct s as [|c0 [|c1 rest]]; intros H.
  - rewrite create_short in H by (simpl; lia). discriminate.
  - rewrite create_short in H by (simpl; lia). discriminate.
  - rewrite create_two_characters in H. injection H as <-. eauto.
Qed.

Lemma ret_inj {A : Type} (a b : A) : ret a = ret b -> a = b.
Proof. intros H. injection H as H. exact H. Qed.

Lemma parity_circuit_inj b0 b1 b0' b1' :
  parity_circuit b0 b1 = parity_circuit b0' b1' -> b0 = b0' /\ b1 = b1'.
Proof. destruct b0, b1, b0', b1'; simpl; intros H; auto; discriminate. Qed.

Ltac in_options :=
  unfold options;
  repeat first [apply list_elem_of_here | apply list_elem_of_further].

(** X1: the input states the two selectors can produce are exactly the valid
    input states. *)
Theorem selectors_give_valid_inputs (s : string) :
  valid_input s = true
  <-> exists q0_state q1_state,
        q0_state ∈ options /\ q1_state ∈ options
        /\ s = input_state_str q0_state q1_state.
Proof.
  split.
  - intros Hs. destruct (valid_input_inv s Hs) as (c0 & c1 & -> & H0 & H1).
    exists (String c0 EmptyString), (String c1 EmptyString).
    unfold options.
    destruct (is_bit_cases c0 H0) as [-> | ->],
             (is_bit_cases c1 H1) as [-> | ->];
      (split; [in_options|split; [in_options|reflexivity]]).
  - intros (q0 & q1 & H0 & H1 & ->). unfold options in *.
    apply elem_of_cons in H0 as [-> | H0];
      [|apply elem_of_cons in H0 as [-> | H0]; [|inversion H0]];
      (apply elem_of_cons in H1 as [-> | H1];
       [|apply elem_of_cons in H1 as [-> | H1]; [|inversion H1]]);
      reflexivity.
Qed.

(** X2: every circuit the builder returns has three qubits and one classical
    bit, and each of its instructions addresses qubits and a classical bit
    that exist, a controlled gate two different qubits. *)
Theorem build_indices_in_range (s : string) (qc : QuantumCircuit) :
  create_parity_check_circuit s = ret qc ->
  QuantumCircuit.num_qubits qc = 3%nat
  /\ QuantumCircuit.num_clbits qc = 1%nat
  /\ forallb (in_range qc) (QuantumCircuit.data qc) = true.
Proof.
  intros H. destruct (create_inv s qc H) as (c0 & c1 & rest & _ & ->).
  destruct (bit_of c0), (bit_of c1); repeat split.
Qed.

Lemma build_indices_in_range_witness :
  QuantumCircuit.num_qubits (parity_circuit false true) = 3%nat
  /\ QuantumCircuit.num_clbits (parity_circuit false true) = 1%nat
  /\ forallb (in_range (parity_circuit false true))
       (QuantumCircuit.data (parity_circuit false true)) = true.
Proof.
  apply (build_indices_in_range "2150" (parity_circuit false true)).
  reflexivity.
Defined.

(** X3: every circuit the builder returns measures once, as its last
    instruction, and what it measures is qubit 2 into classical bit 0. *)
Theorem build_measures_last (s : string) (qc : QuantumCircuit) :
  create_parity_check_circuit s = ret qc ->
  List.filter is_measure (QuantumCircuit.data qc) = [Measure 2 0]
  /\ last (QuantumCircuit.data qc) = Some (Measure 2 0).
Proof.
  intros H. destruct (create_inv s qc H) as (c0 & c1 & rest & _ & ->).
  destruct (bit_of c0), (bit_of c1); split; reflexivity.
Qed.

Lemma build_measures_last_witness :
  List.filter is_measure (QuantumCircuit.data (parity_circuit true true))
  = [Measure 2 0]
  /\ last (QuantumCircuit.data (parity_circuit true true))
     = Some (Measure 2 0).
Proof.
  apply (build_measures_last "11" (parity_circuit true true)). reflexivity.
Defined.

(** X4: a built circuit has one X gate for each of the first two characters
    that is ['1'] and five further instructions, so between five and seven
    instructions in all. *)
Theorem build_size (s : string) (qc : QuantumCircuit) :
  create_parity_check_circuit s = ret qc ->
  List.length (List.filter is_x (QuantumCircuit.data qc)) = ones s
  /\ List.length (QuantumCircuit.data qc) = (5 + ones s)%nat
  /\ (5 <= List.length (QuantumCircuit.data qc) <= 7)%nat.
Proof.
  intros H. destruct (create_inv s qc H) as (c0 & c1 & rest & -> & ->).
  unfold ones. rewrite input_bit_0, input_bit_1.
  destruct (bit_of c0), (bit_of c1); simpl; lia.
Qed.

Lemma build_size_witness :
  List.length (List.filter is_x
                 (QuantumCircuit.data (parity_circuit true false))) = 1%nat
  /\ List.length (QuantumCircuit.data (parity_circuit true false)) = 6%nat
  /\ (5 <= List.length (QuantumCircuit.data (parity_circuit true false))
      <= 7)%nat.
Proof.
  apply (build_size "1x" (parity_circuit true false)). reflexivity.
Defined.

(** X5: two strings of at least two characters build the same circuit exactly
    when they agree, at position 0 and at position 1, on whether the
    character is ['1']. *)
Theorem build_same_circuit_iff (s s' : string) :
  (2 <= String.length s)%nat ->
  (2 <= String.length s')%nat ->
  (create_parity_check_circuit s = create_parity_check_circuit s'
   <-> input_bit s 0 = input_bit s' 0 /\ input_bit s 1 = input_bit s' 1).
Proof.
  destruct s as [|c0 [|c1 rest]]; simpl; try lia.
  destruct s' as [|c0' [|c1' rest']]; simpl; try lia.
  intros _ _. rewrite !create_two_characters, !input_bit_0, !input_bit_1.
  split.
  - intros H. apply ret_inj in H. apply parity_circuit_inj. exact H.
  - intros [-> ->]. reflexivity.
Qed.

Lemma build_same_circuit_iff_witness :
  create_parity_check_circuit "1a" = create_parity_check_circuit "10z"
  <-> input_bit "1a" 0 = input_bit "10z" 0
      /\ input_bit "1a" 1 = input_bit "10z" 1.
Proof. apply (build_same_circuit_iff "1a" "10z"); simpl; lia. Defined.

(** X6: on valid input states the builder is injective: the circuit
    determines the input state. *)
Theorem build_injective_on_valid (s s' : string) :
  valid_input s = true ->
  valid_input s' = true ->
  create_parity_check_circuit s = create_parity_check_circuit s' ->
  s = s'.
Proof.
  intros Hs Hs' H.
  destruct (valid_input_inv s Hs) as (c0 & c1 & -> & H0 & H1).
  destruct (valid_input_inv s' Hs') as (c0' & c1' & -> & H0' & H1').
  rewrite !create_two_characters in H. apply ret_inj in H.
  apply parity_circuit_inj in H as [E0 E1].
  destruct (is_bit_cases c0 H0) as [-> | ->],
           (is_bit_cases c0' H0') as [-> | ->];
    try discriminate E0;
    destruct (is_bit_cases c1 H1) as [-> | ->],
             (is_bit_cases c1' H1') as [-> | ->];
    try discriminate E1; reflexivity.
Qed.

Lemma build_injective_on_valid_witness : "01" = "01".
Proof.
  apply (build_injective_on_valid "01" "01"); reflexivity.
Defined.

(** X7: every circuit the builder returns satisfies the structural
    invariants of a network description, also one built from a string that
    is not a valid input state. *)
Theorem build_well_formed (s : string) (qc : QuantumCircuit) :
  create_parity_check_circuit s = ret qc ->
  well_formed qc = true.
Proof.
  intros H. destruct (create_inv s qc H) as (c0 & c1 & rest & _ & ->).
  apply parity_circuit_well_formed.
Qed.

Lemma build_well_formed_witness :
  well_formed (parity_circuit false false) = true.
Proof.
  apply (build_well_formed "2x" (parity_circuit false false)). reflexivity.
Defined.

(** ** Further properties of the classifier and of the script *)

(** X8: the classifier fails exactly on the empty table, and then with the
    [IndexError] of the subscript. *)
Theorem classify_fails_iff_empty (counts : FrequencyTable) :
  (classify counts = raise IndexError <-> counts = [])
  /\ ((exists e, classify counts = raise e) <-> counts = []).
Proof.
  destruct counts as [|[k n] rest].
  - repeat split; eauto.
  - rewrite classify_first. repeat split; try discriminate.
    intros [e He]. discriminate.
Qed.

(** X9: what the classifier answers depends on the first key of the table
    and on nothing else: two tables are classified alike exactly when their
    first keys are the same, or both are empty. *)
Theorem classify_depends_on_first_key (counts counts' : FrequencyTable) :
  classify counts = classify counts'
  <-> head (keys counts) = head (keys counts').
Proof.
  destruct counts as [|[k n] rest], counts' as [|[k' n'] rest'];
    rewrite ?classify_first; simpl; split; intros H;
    try discriminate; try reflexivity.
  - injection H as _ ->. reflexivity.
  - injection H as ->. reflexivity.
Qed.

Lemma script_on_two_characters get_counts c0 c1 :
  script get_counts (String c0 EmptyString) (String c1 EmptyString)
  = let* classified :=
      classify (get_counts (parity_circuit (bit_of c0) (bit_of c1)) shots) in
    ret (Display (render_label (String c0 (String c1 EmptyString)))
           classified.1 (render_message classified.2 classified.1)).
Proof.
  unfold script, input_state_str.
  change (String c0 EmptyString +:+ String c1 EmptyString)
    with (String c0 (String c1 EmptyString)).
  rewrite create_two_characters. reflexivity.
Qed.

Lemma options_inv q : q ∈ options -> exists c, q = String c EmptyString.
Proof.
  unfold options. intros H.
  apply elem_of_cons in H as [-> | H]; [eauto|].
  apply elem_of_cons in H as [-> | H]; [eauto|inversion H].
Qed.

(** X10: whatever the two selectors hold, the script does not fail in the
    builder; it fails exactly when the backend returns no counts for the
    built circuit at 1024 shots, with the [IndexError] of line 73. *)
Theorem script_fails_iff_no_counts
    (get_counts : QuantumCircuit -> Z -> FrequencyTable)
    (q0_state q1_state : string) :
  q0_state ∈ options ->
  q1_state ∈ options ->
  exists qc,
    create_parity_check_circuit (input_state_str q0_state q1_state) = ret qc
    /\ ((exists e, script get_counts q0_state q1_state = raise e)
        <-> get_counts qc 1024 = [])
    /\ (script get_counts q0_state q1_state = raise IndexError
        <-> get_counts qc 1024 = []).
Proof.
  intros H0 H1.
  destruct (options_inv _ H0) as [c0 ->], (options_inv _ H1) as [c1 ->].
  exists (parity_circuit (bit_of c0) (bit_of c1)).
  split; [apply create_two_characters|].
  rewrite script_on_two_characters. unfold shots.
  destruct (get_counts _ 1024) as [|[k n] rest].
  - repeat split; eauto.
  - rewrite classify_first. simpl.
    repeat split; try discriminate. intros [e He]. discriminate.
Qed.

Lemma script_fails_iff_no_counts_witness :
  exists qc,
    create_parity_check_circuit (input_state_str "1" "0") = ret qc
    /\ ((exists e, script (fun _ _ => []) "1" "0" = raise e)
        <-> (fun (_ : QuantumCircuit) (_ : Z) => @nil (string * Z)) qc 1024
            = [])
    /\ (script (fun _ _ => []) "1" "0" = raise IndexError
        <-> (fun (_ : QuantumCircuit) (_ : Z) => @nil (string * Z)) qc 1024
            = []).
Proof.
  apply (script_fails_iff_no_counts (fun _ _ => []) "1" "0");
    in_options.
Defined.

(** X11: when the script displays a result, the metric and the sentence
    agree: either both say Even and the measured state shown is ['0'], or
    both say Odd and the state shown is some other key; the metric's label
    shows the two selected states. *)
Theorem script_display_consistent
    (get_counts : QuantumCircuit -> Z -> FrequencyTable)
    (q0_state q1_state : string) (d : display) :
  script get_counts q0_state q1_state = ret d ->
  metric_label d = render_label (q0_state +:+ q1_state)
  /\ ((metric_value d = Even /\ message d = render_message "0" Even)
      \/ (metric_value d = Odd
          /\ exists k, k <> "0" /\ message d = render_message k Odd)).
Proof.
  unfold script. intros H.
  destruct (create_parity_check_circuit _) as [e|qc]; [discriminate|].
  simpl in H.
  destruct (get_counts qc shots) as [|[k n] rest]; [discriminate|].
  rewrite classify_first in H. simpl in H. injection H as <-.
  split; [reflexivity|]. simpl.
  case_decide as Hk.
  - left. subst k. split; reflexivity.
  - right. split; [reflexivity|]. exists k. split; [exact Hk|reflexivity].
Qed.

Lemma script_display_consistent_witness :
  metric_label (Display (render_label "01") Odd (render_message "1" Odd))
  = render_label ("0" +:+ "1")
  /\ ((metric_value (Display (render_label "01") Odd (render_message "1" Odd))
       = Even
       /\ message (Display (render_label "01") Odd (render_message "1" Odd))
          = render_message "0" Even)
      \/ (metric_value
            (Display (render_label "01") Odd (render_message "1" Odd)) = Odd
          /\ exists k, k <> "0"
               /\ message
                    (Display (render_label "01") Odd (render_message "1" Odd))
                  = render_message k Odd)).
Proof.
  apply (script_display_consistent (fun _ n => [("1", n)]) "0" "1").
  reflexivity.
Defined.
